(** * tools/test-connection.py: the connection-test command line entry point

    A shallow embedding of [main] of [tools/test-connection.py] and of the
    script body that calls it.  The script builds an [SSHServerManager],
    looks at [sys.argv], and either prints a usage text with the names of
    the configured servers or delegates to [manager.test_connection] and
    maps its result to the process exit status.

    The module [server_manager] is imported by the script and is not part
    of the verified file: it is taken as a parameter (record
    [Collaborator]).  Python effects are modelled by a state and exception
    monad over a [World] that holds [sys.argv], the lines printed to
    standard output, the collaborator's state and a ghost trace of the
    collaborator operations that were invoked. *)

From Stdlib Require Import String Ascii List ZArith Bool Lia.
Import ListNotations.

Local Open Scope string_scope.
Local Open Scope Z_scope.

(** ** The fragment of Python the script uses *)

Module Py.

(** Values a collaborator method may hand back.  [main] only ever tests
    the value for truth ([0 if success else 1]). *)
Inductive PyVal : Type :=
| PyNone
| PyBool (b : bool)
| PyInt (z : Z)
| PyStr (s : string).

(** Python truth value testing. *)
Definition truthy (v : PyVal) : bool :=
  match v with
  | PyNone => false
  | PyBool b => b
  | PyInt z => negb (z =? 0)
  | PyStr s => negb (String.eqb s "")
  end.

(** [sys.exit(n)] raises [SystemExit(n)].  [KeyboardInterrupt] is kept
    apart because the interpreter ends differently on it.  Everything else
    that can be raised is an ordinary exception (a class derived from
    [Exception]), identified by its class name. *)
Inductive PyExc : Type :=
| SystemExit (code : Z)
| KeyboardInterrupt
| Exception (name : string).

Inductive Result (A : Type) : Type :=
| Returned (a : A)
| Raised (e : PyExc).

Arguments Returned {A} a.
Arguments Raised {A} e.

(** The exit status a POSIX shell sees when the script body finishes with
    result [r].  An uncaught [SystemExit(c)] hands [c] to the C library as
    a machine integer, of which the operating system keeps the low eight
    bits ([sys.exit(256)] is status 0, [sys.exit(-1)] is 255); a code that
    does not fit a 64-bit [long] is turned into -1 by the interpreter, so
    255.  An uncaught [KeyboardInterrupt] ends the process by SIGINT,
    which the shell reports as 128 + 2.  Any other uncaught exception
    prints a traceback and gives 1; a body that runs to its end gives 0. *)
Definition exit_status {A : Type} (r : Result A) : Z :=
  match r with
  | Returned _ => 0
  | Raised (SystemExit c) =>
      if (- 2 ^ 63 <=? c) && (c <? 2 ^ 63) then c mod 256 else 255
  | Raised KeyboardInterrupt => 130
  | Raised (Exception _) => 1
  end.

(** [l[i]] on a list, for a non-negative index. *)
Definition getitem {A : Type} (l : list A) (i : nat) : Result A :=
  match nth_error l i with
  | Some x => Returned x
  | None => Raised (Exception "IndexError")
  end.

(** A [dict] with string keys: the items in insertion order, no key twice. *)
Fixpoint distinct (l : list string) : bool :=
  match l with
  | [] => true
  | k :: t => negb (existsb (String.eqb k) t) && distinct t
  end.

Record PyDict (V : Type) : Type := mkDict {
  items : list (string * V);
  items_distinct : distinct (map fst items) = true
}.

Arguments mkDict {V} items items_distinct.
Arguments items {V} p.
Arguments items_distinct {V} p.

(** [d.keys()], in the order iteration yields them. *)
Definition keys {V : Type} (d : PyDict V) : list string :=
  map fst (items d).

(** The line feed [print] ends its output with, and that the literal
    ["\nAvailable servers:"] starts with. *)
Definition LF : string := String (ascii_of_nat 10) EmptyString.

(** What a sequence of [print] calls writes. *)
Fixpoint unlines (ls : list string) : string :=
  match ls with
  | [] => ""
  | l :: t => l ++ LF ++ unlines t
  end.

End Py.

Import Py.

(** ** The collaborator: module [server_manager] *)

(** [CS] is everything the collaborator owns (the manager object and its
    registry, configuration files, the network); [Mgr] is a reference to a
    manager object.  A method may change [CS] whether it returns or raises. *)
Record Collaborator : Type := mkCollaborator {
  CS : Type;
  Mgr : Type;
  Config : Type;
  (** [SSHServerManager()] *)
  SSHServerManager : CS -> Result Mgr * CS;
  (** [manager.servers] *)
  servers : Mgr -> CS -> PyDict Config;
  (** [manager.test_connection(server_name)] *)
  test_connection : Mgr -> string -> CS -> Result PyVal * CS
}.

(** Collaborator operations, as recorded in the ghost trace. *)
Inductive Call : Type :=
| CallNew
| CallKeys
| CallTest (server_name : string).

Definition is_test (c : Call) : bool :=
  match c with CallTest _ => true | _ => false end.

(** ** The script *)

Section Script.

Variable C : Collaborator.

(** [stdout] holds one entry per [print] call of the script, oldest first;
    [trace] is ghost state: the collaborator operations invoked so far. *)
Record World : Type := mkWorld {
  sys_argv : list string;
  stdout : list string;
  collab : CS C;
  trace : list Call
}.

Definition Exec (A : Type) : Type := World -> Result A * World.

Definition ret {A : Type} (a : A) : Exec A :=
  fun w => (Returned a, w).

Definition raise {A : Type} (e : PyExc) : Exec A :=
  fun w => (Raised e, w).

Definition bind {A B : Type} (c : Exec A) (k : A -> Exec B) : Exec B :=
  fun w =>
    match c w with
    | (Returned a, w') => k a w'
    | (Raised e, w') => (Raised e, w')
    end.

Notation "x <- c ;; k" := (bind c (fun x => k))
  (at level 61, c at next level, right associativity).
Notation "c ;; k" := (bind c (fun _ => k))
  (at level 61, right associativity).

Definition lift {A : Type} (r : Result A) : Exec A :=
  fun w => (r, w).

(** [sys.argv] *)
Definition argv : Exec (list string) :=
  fun w => (Returned (sys_argv w), w).

(** [print(s)]: one line on standard output. *)
Definition print (s : string) : Exec unit :=
  fun w =>
    (Returned tt,
     mkWorld (sys_argv w) (stdout w ++ [s]) (collab w) (trace w)).

(** [sys.exit(code)] *)
Definition sys_exit {A : Type} (code : Z) : Exec A :=
  raise (SystemExit code).

(** A collaborator operation [c] was invoked and left the state [s]. *)
Definition log (c : Call) (w : World) (s : CS C) : World :=
  mkWorld (sys_argv w) (stdout w) s (trace w ++ [c]).

(** [SSHServerManager()] *)
Definition new_SSHServerManager : Exec (Mgr C) :=
  fun w =>
    let (r, s) := SSHServerManager C (collab w) in
    (r, log CallNew w s).

(** [manager.servers.keys()] *)
Definition servers_keys (manager : Mgr C) : Exec (list string) :=
  fun w =>
    (Returned (keys (servers C manager (collab w))),
     log CallKeys w (collab w)).

(** [manager.test_connection(server_name)] *)
Definition manager_test_connection (manager : Mgr C) (server_name : string)
  : Exec PyVal :=
  fun w =>
    let (r, s) := test_connection C manager server_name (collab w) in
    (r, log (CallTest server_name) w s).

(** [for x in l: body(x)] *)
Fixpoint for_each {A : Type} (l : list A) (body : A -> Exec unit)
  : Exec unit :=
  match l with
  | [] => ret tt
  | x :: t => body x ;; for_each t body
  end.

Definition usage_line : string :=
  "Usage: python test-connection.py <server_name>".

Definition servers_header : string :=
  LF ++ "Available servers:".

Definition bullet (server : string) : string :=
  "  - " ++ server.

(** [def main()] *)
Definition main : Exec unit :=
  manager <- new_SSHServerManager ;;
  args <- argv ;;
  if (length args <? 2)%nat then
    print usage_line ;;
    print servers_header ;;
    names <- servers_keys manager ;;
    for_each names (fun server => print (bullet server)) ;;
    sys_exit 1
  else
    server_name <- lift (getitem args 1) ;;
    success <- manager_test_connection manager server_name ;;
    sys_exit (if truthy success then 0 else 1).

(** The process as started with argument vector [args] while the
    collaborator is in state [s0]. *)
Definition start (args : list string) (s0 : CS C) : World :=
  mkWorld args [] s0 [].

Definition run (args : list string) (s0 : CS C) : Result unit * World :=
  main (start args s0).

(** [if __name__ == "__main__": main()], seen from the shell. *)
Definition exit_code (args : list string) (s0 : CS C) : Z :=
  exit_status (fst (run args s0)).

Definition final (args : list string) (s0 : CS C) : World :=
  snd (run args s0).

(** The characters that reach standard output: every printed line,
    each followed by its line feed. *)
Definition stdout_text (w : World) : string :=
  unlines (stdout w).

End Script.

Arguments sys_argv {C} w.
Arguments stdout {C} w.
Arguments collab {C} w.
Arguments trace {C} w.

(** The command line without the program name. *)
Definition positional (args : list string) : list string := tl args.

(** A string without a line feed. *)
Fixpoint single_line (s : string) : bool :=
  match s with
  | EmptyString => true
  | String c t => negb (Ascii.eqb c (ascii_of_nat 10)) && single_line t
  end.

(** The same collaborator with another registry behind [manager.servers]. *)
Definition with_servers (C : Collaborator)
    (srv : Mgr C -> CS C -> PyDict (Config C)) : Collaborator :=
  mkCollaborator (CS C) (Mgr C) (Config C)
    (SSHServerManager C) srv (test_connection C).

(** Two calls end the same way when both return or both raise the same
    exception. *)
Definition same_shape {A B : Type} (r1 : Result A) (r2 : Result B) : Prop :=
  match r1, r2 with
  | Returned _, Returned _ => True
  | Raised e1, Raised e2 => e1 = e2
  | _, _ => False
  end.

(** ** A concrete collaborator

    Two servers; only [prod] is reachable.  The state counts connection
    attempts, so that [test_connection] visibly changes it. *)
Module Demo.

Definition registry : PyDict string :=
  mkDict [("prod", "10.0.0.1"); ("staging", "10.0.0.2")] eq_refl.

Definition collaborator : Collaborator :=
  mkCollaborator nat unit string
    (fun attempts => (Returned tt, attempts))
    (fun _ _ => registry)
    (fun _ server_name attempts =>
       (Returned (PyBool (String.eqb server_name "prod")), S attempts)).

(** The same servers behind another manager: the registry is kept in
    the state, in the opposite order, and no attempts are counted. *)
Definition registry' : PyDict bool :=
  mkDict [("staging", false); ("prod", true)] eq_refl.

Definition collaborator' : Collaborator :=
  mkCollaborator (PyDict bool) unit bool
    (fun d => (Returned tt, d))
    (fun _ d => d)
    (fun _ server_name d =>
       (Returned (PyBool (String.eqb server_name "prod")), d)).

End Demo.

(** ** Collaborators that fail *)
Module Failing.

(** No configuration can be read: the constructor raises. *)
Definition no_config : Collaborator :=
  mkCollaborator unit unit unit
    (fun s => (Raised (Exception "FileNotFoundError"), s))
    (fun _ _ => mkDict [] eq_refl)
    (fun _ _ s => (Returned (PyBool true), s)).

(** The servers of [Demo], but connecting to anything other than [prod]
    ends in an exception instead of [False].  The state counts the
    attempts. *)
Definition timeouts : Collaborator :=
  mkCollaborator nat unit string
    (fun attempts => (Returned tt, attempts))
    (fun _ _ => Demo.registry)
    (fun _ server_name attempts =>
       (if String.eqb server_name "prod"
        then Returned (PyBool true)
        else Raised (Exception "TimeoutError"),
        S attempts)).

End Failing.

(** ** Registries that are listed alike

    Servers [x] and [y]; and one server whose name has a line feed in
    it. *)
Module Alike.

Definition two_servers : Collaborator :=
  mkCollaborator unit unit unit
    (fun s => (Returned tt, s))
    (fun _ _ => mkDict [("x", tt); ("y", tt)] eq_refl)
    (fun _ _ s => (Returned (PyBool false), s)).

Definition one_server_two_lines : Collaborator :=
  mkCollaborator unit unit unit
    (fun s => (Returned tt, s))
    (fun _ _ => mkDict [("x" ++ LF ++ "  - y", tt)] eq_refl)
    (fun _ _ s => (Returned (PyBool false), s)).

End Alike.

Example exit_status_low_eight_bits :
  exit_status (@Raised unit (SystemExit 256)) = 0 /\
  exit_status (@Raised unit (SystemExit (-1))) = 255 /\
  exit_status (@Raised unit (SystemExit 3)) = 3 /\
  exit_status (@Raised unit (SystemExit (2 ^ 64))) = 255.
Proof. repeat split. Qed.

Example demo_no_args :
  exit_code Demo.collaborator ["test-connection.py"] 0%nat = 1 /\
  stdout (final Demo.collaborator ["test-connection.py"] 0%nat) =
    [usage_line; servers_header; "  - prod"; "  - staging"].
Proof. split; reflexivity. Qed.

Example demo_prod :
  exit_code Demo.collaborator ["test-connection.py"; "prod"] 0%nat = 0.
Proof. reflexivity. Qed.

Example demo_unknown :
  exit_code Demo.collaborator ["test-connection.py"; "unknown"] 0%nat = 1.
Proof. reflexivity. Qed.

(** ** Facts about the Python fragment *)

Lemma existsb_eqb_In (k : string) (l : list string) :
  existsb (String.eqb k) l = true <-> In k l.
Proof.
  rewrite existsb_exists. split.
  - intros [x [Hin Heq]]. apply String.eqb_eq in Heq. now subst.
  - intros Hin. exists k. split; [assumption | apply String.eqb_refl].
Qed.

Lemma distinct_NoDup (l : list string) : distinct l = true -> NoDup l.
Proof.
  induction l as [|k t IH]; simpl; intros H.
  - constructor.
  - apply andb_true_iff in H. destruct H as [Hk Ht].
    constructor; [| now apply IH].
    intros Hin. apply existsb_eqb_In in Hin.
    rewrite Hin in Hk. discriminate.
Qed.

Lemma keys_NoDup {V : Type} (d : PyDict V) : NoDup (keys d).
Proof. apply distinct_NoDup, items_distinct. Qed.

Lemma bullet_inj (a b : string) : bullet a = bullet b -> a = b.
Proof. unfold bullet. simpl. intros H. now inversion H. Qed.

Lemma bullet_not_usage (k : string) : usage_line <> bullet k.
Proof. unfold usage_line, bullet. simpl. discriminate. Qed.

Lemma bullet_not_header (k : string) : servers_header <> bullet k.
Proof. unfold servers_header, bullet, LF. simpl. discriminate. Qed.

Lemma count_occ_bullet (k : string) (l : list string) :
  count_occ string_dec (map bullet l) (bullet k) = count_occ string_dec l k.
Proof.
  induction l as [|x t IH]; cbn [map count_occ]; [reflexivity |].
  destruct (string_dec (bullet x) (bullet k)) as [E | N];
    destruct (string_dec x k) as [E' | N']; try congruence.
  apply bullet_inj in E. contradiction.
Qed.

Lemma append_assoc (a b c : string) : (a ++ b) ++ c = a ++ (b ++ c).
Proof.
  induction a as [|ch a IH]; simpl; [reflexivity | now rewrite IH].
Qed.

Lemma unlines_app (l1 l2 : list string) :
  unlines (l1 ++ l2) = unlines l1 ++ unlines l2.
Proof.
  induction l1 as [|x t IH]; cbn [unlines app]; [reflexivity |].
  now rewrite IH, !append_assoc.
Qed.

(** ** How [main] runs *)

Section Runs.

Variable C : Collaborator.

(** The loop over the names prints one bullet per name, in order, and
    touches nothing else. *)
Lemma for_each_print (names : list string) (w : World C) :
  for_each C names (fun server => print C (bullet server)) w =
  (Returned tt,
   mkWorld C (sys_argv w) (stdout w ++ map bullet names)
     (collab w) (trace w)).
Proof.
  revert w. induction names as [|n t IH]; intros w; simpl.
  - unfold ret. rewrite app_nil_r. now destruct w.
  - unfold bind at 1. unfold print at 1. rewrite IH. simpl.
    now rewrite <- app_assoc.
Qed.

(** The three ways a run can go, by the constructor's result and the
    number of positional arguments. *)
Lemma run_constructor_raises args s0 e s1 :
  SSHServerManager C s0 = (Raised e, s1) ->
  run C args s0 = (Raised e, mkWorld C args [] s1 [CallNew]).
Proof.
  intros H. unfold run, main, bind, new_SSHServerManager, start. simpl.
  now rewrite H.
Qed.

Lemma run_usage args s0 m s1 :
  positional args = [] ->
  SSHServerManager C s0 = (Returned m, s1) ->
  run C args s0 =
  (Raised (SystemExit 1),
   mkWorld C args
     (usage_line :: servers_header :: map bullet (keys (servers C m s1)))
     s1 [CallNew; CallKeys]).
Proof.
  intros Hpos H.
  assert (Hlen : (length args <? 2)%nat = true).
  { destruct args as [|p [|a r]]; simpl in Hpos; try discriminate;
      reflexivity. }
  unfold run, main, start.
  unfold bind at 1. unfold new_SSHServerManager. simpl. rewrite H.
  unfold bind at 1. unfold argv at 1. simpl. rewrite Hlen.
  unfold bind at 1. unfold print at 1. simpl.
  unfold bind at 1. unfold print at 1. simpl.
  unfold bind at 1. unfold servers_keys at 1. simpl.
  unfold bind at 1. rewrite for_each_print. simpl. reflexivity.
Qed.

Lemma run_test args a rest s0 m s1 :
  positional args = a :: rest ->
  SSHServerManager C s0 = (Returned m, s1) ->
  run C args s0 =
  (match fst (test_connection C m a s1) with
   | Returned v => Raised (SystemExit (if truthy v then 0 else 1))
   | Raised e => Raised e
   end,
   mkWorld C args [] (snd (test_connection C m a s1))
     [CallNew; CallTest a]).
Proof.
  intros Hpos H.
  destruct args as [|p [|a' r]]; simpl in Hpos; try discriminate.
  injection Hpos as -> ->.
  unfold run, main, start, bind, new_SSHServerManager, argv, lift,
    manager_test_connection, sys_exit, raise. simpl. rewrite H. simpl.
  destruct (test_connection C m a s1) as [[v | e] s2]; reflexivity.
Qed.

End Runs.

(** ** The exit status on the test path *)

(** C1.  When a server name is supplied (at least one positional argument,
    [a] being the first) and the constructor and
    [test_connection(a)] return, the process exit code is decided by the
    truth of the value returned: 0 when it is [True], 1 when it is [False],
    and never anything but 0 or 1. *)
Theorem exit_code_follows_test_result
    (C : Collaborator) (args : list string) (a : string) (rest : list string)
    (s0 s1 s2 : CS C) (m : Mgr C) (v : PyVal) :
  positional args = a :: rest ->
  SSHServerManager C s0 = (Returned m, s1) ->
  test_connection C m a s1 = (Returned v, s2) ->
  exit_code C args s0 = (if truthy v then 0 else 1) /\
  (v = PyBool true -> exit_code C args s0 = 0) /\
  (v = PyBool false -> exit_code C args s0 = 1) /\
  (exit_code C args s0 = 0 \/ exit_code C args s0 = 1).
Proof.
  intros Hpos Hnew Htest.
  assert (E : exit_code C args s0 = if truthy v then 0 else 1).
  { unfold exit_code. rewrite (run_test C args a rest s0 m s1 Hpos Hnew).
    rewrite Htest. cbn [fst]. destruct (truthy v); reflexivity. }
  rewrite E. repeat split.
  - now intros ->.
  - now intros ->.
  - destruct (truthy v); [left | right]; reflexivity.
Qed.

Lemma exit_code_follows_test_result_witness :
  exit_code Demo.collaborator ["test-connection.py"; "prod"] 0%nat = 0.
Proof.
  refine (proj1 (proj2
    (exit_code_follows_test_result Demo.collaborator
       ["test-connection.py"; "prod"] "prod" [] 0%nat 0%nat 1%nat tt
       (PyBool true) _ _ _)) eq_refl); reflexivity.
Defined.

(** ** The missing-argument path *)

(** C2.  With no positional argument (and a constructor that returns) the
    process exits with code 1, [test_connection] is not invoked, and every
    name of the registry is listed exactly once: exactly one printed line
    is the bullet line of that name. *)
Theorem usage_exit_and_listing
    (C : Collaborator) (args : list string) (s0 s1 : CS C) (m : Mgr C) :
  positional args = [] ->
  SSHServerManager C s0 = (Returned m, s1) ->
  exit_code C args s0 = 1 /\
  filter is_test (trace (final C args s0)) = [] /\
  (forall name, In name (keys (servers C m s1)) ->
     count_occ string_dec (stdout (final C args s0)) (bullet name) = 1%nat).
Proof.
  intros Hpos Hnew.
  unfold exit_code, final. rewrite (run_usage C args s0 m s1 Hpos Hnew).
  cbn [fst snd exit_status stdout trace]. repeat split.
  intros name Hin. cbn [count_occ].
  destruct (string_dec usage_line (bullet name)) as [E | _];
    [now apply bullet_not_usage in E |].
  destruct (string_dec servers_header (bullet name)) as [E | _];
    [now apply bullet_not_header in E |].
  rewrite count_occ_bullet.
  now apply (proj1 (NoDup_count_occ' string_dec _) (keys_NoDup _)).
Qed.

Lemma usage_exit_and_listing_witness :
  exit_code Demo.collaborator ["test-connection.py"] 0%nat = 1 /\
  count_occ string_dec
    (stdout (final Demo.collaborator ["test-connection.py"] 0%nat))
    (bullet "staging") = 1%nat.
Proof.
  destruct (usage_exit_and_listing Demo.collaborator
              ["test-connection.py"] 0%nat 0%nat tt eq_refl eq_refl)
    as [Hcode [_ Hlist]].
  split; [exact Hcode |].
  apply Hlist. simpl. right. left. reflexivity.
Defined.

(** C5.  On the missing-argument path standard output is the usage line,
    then the heading [Available servers:] (preceded by an empty line), then
    the known server names, one per line, each prefixed by ["  - "]. *)
Theorem usage_output_text
    (C : Collaborator) (args : list string) (s0 s1 : CS C) (m : Mgr C) :
  positional args = [] ->
  SSHServerManager C s0 = (Returned m, s1) ->
  stdout (final C args s0) =
    usage_line :: servers_header :: map bullet (keys (servers C m s1)) /\
  stdout_text C (final C args s0) =
    usage_line ++ LF ++ LF ++ "Available servers:" ++ LF ++
    unlines (map (fun name => "  - " ++ name) (keys (servers C m s1))).
Proof.
  intros Hpos Hnew.
  unfold final, stdout_text. rewrite (run_usage C args s0 m s1 Hpos Hnew).
  cbn [snd stdout]. split; [reflexivity |].
  change (usage_line :: servers_header :: map bullet (keys (servers C m s1)))
    with ([usage_line; servers_header] ++ map bullet (keys (servers C m s1)))%list.
  rewrite unlines_app. cbn [unlines]. unfold servers_header.
  rewrite !append_assoc. reflexivity.
Qed.

Lemma usage_output_text_witness :
  stdout_text Demo.collaborator
    (final Demo.collaborator ["test-connection.py"] 0%nat) =
  usage_line ++ LF ++ LF ++ "Available servers:" ++ LF ++
  "  - prod" ++ LF ++ "  - staging" ++ LF.
Proof.
  exact (proj2 (usage_output_text Demo.collaborator
                  ["test-connection.py"] 0%nat 0%nat tt eq_refl eq_refl)).
Defined.

(** C6.  On the missing-argument path the names are printed in the order
    in which the registry yields its keys: after the usage line and the
    heading, the i-th line printed is the bullet line of the i-th key, and
    there is a line for index i only if there is a key at index i. *)
Theorem usage_listing_order
    (C : Collaborator) (args : list string) (s0 s1 : CS C) (m : Mgr C) :
  positional args = [] ->
  SSHServerManager C s0 = (Returned m, s1) ->
  forall i : nat,
    nth_error (stdout (final C args s0)) (2 + i) =
    option_map bullet (nth_error (keys (servers C m s1)) i).
Proof.
  intros Hpos Hnew i.
  unfold final. rewrite (run_usage C args s0 m s1 Hpos Hnew).
  cbn [snd stdout Nat.add nth_error].
  apply nth_error_map.
Qed.

Lemma usage_listing_order_witness :
  nth_error (stdout (final Demo.collaborator' [] Demo.registry')) 2 =
    Some "  - staging" /\
  nth_error (stdout (final Demo.collaborator' [] Demo.registry')) 3 =
    Some "  - prod".
Proof.
  split.
  - exact (usage_listing_order Demo.collaborator' [] Demo.registry'
             Demo.registry' tt eq_refl eq_refl 0%nat).
  - exact (usage_listing_order Demo.collaborator' [] Demo.registry'
             Demo.registry' tt eq_refl eq_refl 1%nat).
Defined.

(** ** What the test path passes on *)

(** C3.  With at least one positional argument (and a constructor that
    returns) [main] hands exactly the first positional argument to
    [test_connection], on the state the constructor left: the run ends as
    that call ends (its exception, or [sys.exit] on the truth of its
    result), in the state that call left, and the only collaborator
    operations invoked are the constructor and that call.  The name is not
    checked against the registry: the registry is not enumerated, and with
    any other registry behind [manager.servers], so whether or not the
    name is one of its keys, the run is the same.  When the call returns
    [False] the exit code is 1 for every registry: an unknown name and a
    failed connection cannot be told apart by the exit code. *)
Theorem first_argument_passed_unchecked
    (C : Collaborator) (args : list string) (a : string) (rest : list string)
    (s0 s1 : CS C) (m : Mgr C) :
  positional args = a :: rest ->
  SSHServerManager C s0 = (Returned m, s1) ->
  fst (run C args s0) =
    match fst (test_connection C m a s1) with
    | Returned v => Raised (SystemExit (if truthy v then 0 else 1))
    | Raised e => Raised e
    end /\
  collab (final C args s0) = snd (test_connection C m a s1) /\
  trace (final C args s0) = [CallNew; CallTest a] /\
  (forall srv,
     fst (run (with_servers C srv) args s0) = fst (run C args s0) /\
     collab (final (with_servers C srv) args s0) = collab (final C args s0) /\
     trace (final (with_servers C srv) args s0) = [CallNew; CallTest a] /\
     exit_code (with_servers C srv) args s0 = exit_code C args s0) /\
  (forall s2, test_connection C m a s1 = (Returned (PyBool false), s2) ->
     forall srv, exit_code (with_servers C srv) args s0 = 1).
Proof.
  intros Hpos Hnew.
  assert (Hsrv : forall srv,
            run (with_servers C srv) args s0 =
            (match fst (test_connection C m a s1) with
             | Returned v => Raised (SystemExit (if truthy v then 0 else 1))
             | Raised e => Raised e
             end,
             mkWorld (with_servers C srv) args []
               (snd (test_connection C m a s1)) [CallNew; CallTest a])).
  { intros srv.
    exact (run_test (with_servers C srv) args a rest s0 m s1 Hpos Hnew). }
  unfold exit_code, final.
  rewrite (run_test C args a rest s0 m s1 Hpos Hnew).
  cbn [fst snd trace collab]. repeat split.
  - now rewrite Hsrv.
  - now rewrite Hsrv.
  - now rewrite Hsrv.
  - now rewrite Hsrv.
  - intros s2 Htest srv. rewrite Hsrv, Htest. reflexivity.
Qed.

Lemma first_argument_passed_unchecked_witness :
  fst (run Demo.collaborator ["test-connection.py"; "prod"] 0%nat) =
    Raised (SystemExit 0) /\
  collab (final Demo.collaborator ["test-connection.py"; "prod"] 0%nat) =
    1%nat /\
  trace (final Demo.collaborator ["test-connection.py"; "prod"] 0%nat) =
    [CallNew; CallTest "prod"] /\
  exit_code (with_servers Demo.collaborator (fun _ _ => mkDict [] eq_refl))
    ["test-connection.py"; "staging"] 0%nat = 1.
Proof.
  destruct (first_argument_passed_unchecked Demo.collaborator
              ["test-connection.py"; "prod"] "prod" [] 0%nat 0%nat tt
              eq_refl eq_refl) as [Hres [Hst [Htr _]]].
  split; [exact Hres |]. split; [exact Hst |]. split; [exact Htr |].
  exact (proj2 (proj2 (proj2 (proj2
           (first_argument_passed_unchecked Demo.collaborator
              ["test-connection.py"; "staging"] "staging" [] 0%nat 0%nat tt
              eq_refl eq_refl)))) 1%nat eq_refl
           (fun _ _ => mkDict [] eq_refl)).
Defined.

(** C9.  Arguments after the first positional one are ignored: the run
    with them and the run with only the first one end with the same
    result of [main] (so no error is raised for the extra arguments), the
    same exit code, the same collaborator calls, the same output and the
    same collaborator state, even when the collaborator raises. *)
Theorem extra_arguments_ignored
    (C : Collaborator) (prog a : string) (rest : list string) (s0 : CS C) :
  fst (run C (prog :: a :: rest) s0) = fst (run C [prog; a] s0) /\
  exit_code C (prog :: a :: rest) s0 = exit_code C [prog; a] s0 /\
  trace (final C (prog :: a :: rest) s0) = trace (final C [prog; a] s0) /\
  stdout (final C (prog :: a :: rest) s0) = stdout (final C [prog; a] s0) /\
  collab (final C (prog :: a :: rest) s0) = collab (final C [prog; a] s0).
Proof.
  unfold exit_code, final.
  destruct (SSHServerManager C s0) as [[m | e] s1] eqn:Hnew.
  - rewrite (run_test C (prog :: a :: rest) a rest s0 m s1 eq_refl Hnew).
    rewrite (run_test C [prog; a] a [] s0 m s1 eq_refl Hnew).
    repeat split.
  - rewrite !(run_constructor_raises C _ s0 e s1 Hnew).
    repeat split.
Qed.

(** ** Termination by [sys.exit] *)

(** C4.  When the constructor and [test_connection] return rather than
    raise, every run of [main] ends in [sys.exit] with status 0 or 1, and
    that status is the process exit code; [main] does not return to its
    caller. *)
Theorem main_always_exits
    (C : Collaborator) (args : list string) (s0 : CS C) :
  (exists m s1, SSHServerManager C s0 = (Returned m, s1)) ->
  (forall m name s, exists v s', test_connection C m name s = (Returned v, s')) ->
  (exists code,
     fst (run C args s0) = Raised (SystemExit code) /\
     (code = 0 \/ code = 1) /\
     exit_code C args s0 = code) /\
  (forall u, fst (run C args s0) <> Returned u).
Proof.
  intros [m [s1 Hnew]] Htest.
  assert (H : exists code,
             fst (run C args s0) = Raised (SystemExit code) /\
             (code = 0 \/ code = 1)).
  { destruct (positional args) as [|a rest] eqn:Hpos.
    - rewrite (run_usage C args s0 m s1 Hpos Hnew).
      exists 1. split; [reflexivity | now right].
    - rewrite (run_test C args a rest s0 m s1 Hpos Hnew).
      destruct (Htest m a s1) as [v [s2 Hv]]. rewrite Hv. cbn [fst].
      exists (if truthy v then 0 else 1). split; [reflexivity |].
      destruct (truthy v); [now left | now right]. }
  destruct H as [code [Hrun Hcode]]. split.
  - exists code. unfold exit_code. rewrite Hrun.
    destruct Hcode as [-> | ->]; repeat split; auto.
  - intros u. rewrite Hrun. discriminate.
Qed.

Lemma main_always_exits_witness :
  exists code,
    fst (run Demo.collaborator ["test-connection.py"; "staging"] 0%nat) =
      Raised (SystemExit code) /\
    (code = 0 \/ code = 1) /\
    exit_code Demo.collaborator ["test-connection.py"; "staging"] 0%nat = code.
Proof.
  refine (proj1 (main_always_exits Demo.collaborator
                   ["test-connection.py"; "staging"] 0%nat _ _)).
  - exists tt, 0%nat. reflexivity.
  - intros m name s. eexists. eexists. reflexivity.
Defined.

(** ** Repeated runs *)

(** C7.  Two invocations with the same argument list, against
    collaborators that behave the same (the constructors end the same way
    and [test_connection] gives the same result for every name), produce
    the same exit code.  The collaborators may differ in everything else,
    including how they represent their state. *)
Theorem same_inputs_same_exit_code
    (C1 C2 : Collaborator) (args : list string) (s1 : CS C1) (s2 : CS C2) :
  same_shape (fst (SSHServerManager C1 s1)) (fst (SSHServerManager C2 s2)) ->
  (forall m1 m2 name,
     fst (SSHServerManager C1 s1) = Returned m1 ->
     fst (SSHServerManager C2 s2) = Returned m2 ->
     fst (test_connection C1 m1 name (snd (SSHServerManager C1 s1))) =
     fst (test_connection C2 m2 name (snd (SSHServerManager C2 s2)))) ->
  exit_code C1 args s1 = exit_code C2 args s2.
Proof.
  intros Hnew Htest. unfold exit_code.
  destruct (SSHServerManager C1 s1) as [[m1 | e1] t1] eqn:H1;
    destruct (SSHServerManager C2 s2) as [[m2 | e2] t2] eqn:H2;
    cbn [fst snd same_shape] in Hnew, Htest; try contradiction.
  - destruct (positional args) as [|a rest] eqn:Hpos.
    + rewrite (run_usage C1 args s1 m1 t1 Hpos H1).
      rewrite (run_usage C2 args s2 m2 t2 Hpos H2). reflexivity.
    + rewrite (run_test C1 args a rest s1 m1 t1 Hpos H1).
      rewrite (run_test C2 args a rest s2 m2 t2 Hpos H2).
      cbn [fst]. rewrite (Htest m1 m2 a eq_refl eq_refl). reflexivity.
  - subst e2.
    rewrite (run_constructor_raises C1 args s1 e1 t1 H1).
    rewrite (run_constructor_raises C2 args s2 e1 t2 H2). reflexivity.
Qed.

Lemma same_inputs_same_exit_code_witness :
  exit_code Demo.collaborator ["test-connection.py"; "prod"] 0%nat =
  exit_code Demo.collaborator' ["test-connection.py"; "prod"] Demo.registry'.
Proof.
  apply (same_inputs_same_exit_code Demo.collaborator Demo.collaborator').
  - simpl. exact I.
  - intros m1 m2 name _ _. reflexivity.
Defined.

(** ** The registry is left alone *)

(** C8.  [main] itself changes nothing the collaborator owns: without a
    positional argument the collaborator's state at exit is the one the
    constructor left; with one it is the one [test_connection] left.  So
    when [test_connection] does not change the registry, the registry at
    exit is the registry the constructor set up, on both paths. *)
Theorem registry_unchanged_by_main
    (C : Collaborator) (args : list string) (s0 : CS C) :
  (forall m name s,
     servers C m (snd (test_connection C m name s)) = servers C m s) ->
  (positional args = [] ->
     collab (final C args s0) = snd (SSHServerManager C s0)) /\
  (forall m a rest,
     positional args = a :: rest ->
     fst (SSHServerManager C s0) = Returned m ->
     collab (final C args s0) =
       snd (test_connection C m a (snd (SSHServerManager C s0)))) /\
  (forall m,
     fst (SSHServerManager C s0) = Returned m ->
     servers C m (collab (final C args s0)) =
     servers C m (snd (SSHServerManager C s0))).
Proof.
  intros Hframe. unfold final.
  destruct (SSHServerManager C s0) as [[m | e] s1] eqn:Hnew; cbn [fst snd].
  - destruct (positional args) as [|a rest] eqn:Hpos.
    + rewrite (run_usage C args s0 m s1 Hpos Hnew). cbn [snd collab].
      split; [reflexivity |]. split; [discriminate | reflexivity].
    + rewrite (run_test C args a rest s0 m s1 Hpos Hnew). cbn [snd collab].
      split; [discriminate |]. split.
      * intros m' a' rest' Ha Hm. injection Ha as <- _.
        injection Hm as <-. reflexivity.
      * intros m' Hm. injection Hm as <-. apply Hframe.
  - rewrite (run_constructor_raises C args s0 e s1 Hnew). cbn [snd collab].
    split; [reflexivity |]. split; [discriminate | reflexivity].
Qed.

Lemma registry_unchanged_by_main_witness :
  servers Demo.collaborator tt
    (collab (final Demo.collaborator ["test-connection.py"; "prod"] 0%nat)) =
  Demo.registry /\
  collab (final Demo.collaborator ["test-connection.py"; "prod"] 0%nat) =
  1%nat.
Proof.
  destruct (registry_unchanged_by_main Demo.collaborator
              ["test-connection.py"; "prod"] 0%nat
              (fun _ _ _ => eq_refl)) as [_ [Htest Hreg]].
  split.
  - exact (Hreg tt eq_refl).
  - exact (Htest tt "prod" [] eq_refl eq_refl).
Defined.

(** ** Which collaborator operations a run invokes *)

(** C10.  In every run [test_connection] is called at most once, the keys
    of the registry are enumerated only when there is no positional
    argument, and no run does both. *)
Theorem calls_at_most_one_kind
    (C : Collaborator) (args : list string) (s0 : CS C) :
  (length (filter is_test (trace (final C args s0))) <= 1)%nat /\
  (In CallKeys (trace (final C args s0)) -> positional args = []) /\
  ~ (In CallKeys (trace (final C args s0)) /\
     exists name, In (CallTest name) (trace (final C args s0))).
Proof.
  unfold final.
  destruct (SSHServerManager C s0) as [[m | e] s1] eqn:Hnew.
  - destruct (positional args) as [|a rest] eqn:Hpos.
    + rewrite (run_usage C args s0 m s1 Hpos Hnew). cbn [snd trace].
      split; [simpl; lia |]. split; [reflexivity |].
      intros [_ [name Hin]]. simpl in Hin.
      destruct Hin as [H | [H | []]]; discriminate.
    + rewrite (run_test C args a rest s0 m s1 Hpos Hnew). cbn [snd trace].
      assert (Hno : ~ In CallKeys [CallNew; CallTest a]).
      { simpl. intros [H | [H | []]]; discriminate. }
      split; [simpl; lia |]. split; [intros H; now elim Hno |].
      intros [H _]. now elim Hno.
  - rewrite (run_constructor_raises C args s0 e s1 Hnew). cbn [snd trace].
    assert (Hno : ~ In CallKeys [CallNew]).
    { simpl. intros [H | []]; discriminate. }
    split; [simpl; lia |]. split; [intros H; now elim Hno |].
    intros [H _]. now elim Hno.
Qed.

(** ** When the collaborator raises *)

(** X1.  [main] builds the manager before it looks at [sys.argv] and
    catches nothing: when the constructor raises, that exception leaves
    [main] unchanged, the script has printed nothing (no usage text, even
    without a server name), no other collaborator operation has been
    invoked, and the collaborator's state is the one the constructor
    left. *)
Theorem constructor_failure_propagates
    (C : Collaborator) (args : list string) (s0 s1 : CS C) (e : PyExc) :
  SSHServerManager C s0 = (Raised e, s1) ->
  fst (run C args s0) = Raised e /\
  stdout (final C args s0) = [] /\
  trace (final C args s0) = [CallNew] /\
  collab (final C args s0) = s1 /\
  (forall name, e = Exception name -> exit_code C args s0 = 1).
Proof.
  intros Hnew. unfold exit_code, final.
  rewrite (run_constructor_raises C args s0 e s1 Hnew).
  cbn [fst snd stdout trace collab]. repeat split.
  intros name ->. reflexivity.
Qed.

Lemma constructor_failure_propagates_witness :
  fst (run Failing.no_config ["test-connection.py"] tt) =
    Raised (Exception "FileNotFoundError") /\
  stdout (final Failing.no_config ["test-connection.py"] tt) = [] /\
  exit_code Failing.no_config ["test-connection.py"] tt = 1.
Proof.
  destruct (constructor_failure_propagates Failing.no_config
              ["test-connection.py"] tt tt
              (Exception "FileNotFoundError") eq_refl)
    as [Hres [Hout [_ [_ Hcode]]]].
  split; [exact Hres |]. split; [exact Hout |].
  exact (Hcode "FileNotFoundError" eq_refl).
Defined.

(** X2.  An exception raised by [test_connection] is not caught either:
    it leaves [main] unchanged, with the collaborator's state as
    [test_connection] left it.  For an ordinary exception the process exit
    code is 1, the same code as for a connection test that returned
    [False]. *)
Theorem test_failure_propagates
    (C : Collaborator) (args : list string) (a : string) (rest : list string)
    (s0 s1 s2 : CS C) (m : Mgr C) (e : PyExc) :
  positional args = a :: rest ->
  SSHServerManager C s0 = (Returned m, s1) ->
  test_connection C m a s1 = (Raised e, s2) ->
  fst (run C args s0) = Raised e /\
  collab (final C args s0) = s2 /\
  (forall name, e = Exception name -> exit_code C args s0 = 1).
Proof.
  intros Hpos Hnew Htest. unfold exit_code, final.
  rewrite (run_test C args a rest s0 m s1 Hpos Hnew), Htest.
  cbn [fst snd collab]. repeat split.
  intros name ->. reflexivity.
Qed.

Lemma test_failure_propagates_witness :
  fst (run Failing.timeouts ["test-connection.py"; "staging"] 0%nat) =
    Raised (Exception "TimeoutError") /\
  collab (final Failing.timeouts ["test-connection.py"; "staging"] 0%nat) =
    1%nat /\
  exit_code Failing.timeouts ["test-connection.py"; "staging"] 0%nat = 1.
Proof.
  destruct (test_failure_propagates Failing.timeouts
              ["test-connection.py"; "staging"] "staging" []
              0%nat 0%nat 1%nat tt (Exception "TimeoutError")
              eq_refl eq_refl eq_refl)
    as [Hres [Hst Hcode]].
  split; [exact Hres |]. split; [exact Hst |].
  exact (Hcode "TimeoutError" eq_refl).
Defined.


(** ** What the exit code tells a caller *)





(** ** Order and number of collaborator operations *)

(** X6.  In every run the constructor is the first collaborator operation
    and is invoked exactly once; it is followed by nothing (when it
    raises), by one enumeration of the registry keys, or by one call of
    [test_connection]. *)
Theorem constructor_first_and_once
    (C : Collaborator) (args : list string) (s0 : CS C) :
  exists rest,
    trace (final C args s0) = CallNew :: rest /\
    (rest = [] \/ rest = [CallKeys] \/ exists a, rest = [CallTest a]).
Proof.
  unfold final.
  destruct (SSHServerManager C s0) as [[m | e] s1] eqn:Hnew.
  - destruct (positional args) as [|a rest] eqn:Hpos.
    + rewrite (run_usage C args s0 m s1 Hpos Hnew).
      exists [CallKeys]. split; [reflexivity | right; now left].
    + rewrite (run_test C args a rest s0 m s1 Hpos Hnew).
      exists [CallTest a]. split; [reflexivity |]. right. right. now exists a.
  - rewrite (run_constructor_raises C args s0 e s1 Hnew).
    exists []. split; [reflexivity | now left].
Qed.

(** ** What the script prints *)

(** X7.  When a server name is supplied the script itself prints nothing,
    whatever the constructor and [test_connection] do: the outcome of the
    test is reported through the exit code only. *)
Theorem test_path_prints_nothing
    (C : Collaborator) (args : list string) (a : string) (rest : list string)
    (s0 : CS C) :
  positional args = a :: rest ->
  stdout (final C args s0) = [] /\ stdout_text C (final C args s0) = "".
Proof.
  intros Hpos. unfold stdout_text, final.
  destruct (SSHServerManager C s0) as [[m | e] s1] eqn:Hnew.
  - rewrite (run_test C args a rest s0 m s1 Hpos Hnew). split; reflexivity.
  - rewrite (run_constructor_raises C args s0 e s1 Hnew). split; reflexivity.
Qed.

Lemma test_path_prints_nothing_witness :
  stdout (final Demo.collaborator ["test-connection.py"; "staging"] 0%nat) = [] /\
  stdout_text Demo.collaborator
    (final Demo.collaborator ["test-connection.py"; "staging"] 0%nat) = "".
Proof.
  exact (test_path_prints_nothing Demo.collaborator
           ["test-connection.py"; "staging"] "staging" [] 0%nat eq_refl).
Defined.

(** Splitting text into lines again *)

Lemma append_cancel_l (p x y : string) : p ++ x = p ++ y -> x = y.
Proof.
  induction p as [|c p IH]; cbn [append]; intros H; [assumption |].
  injection H as H. now apply IH.
Qed.

Lemma single_line_cons (c : ascii) (t : string) :
  single_line (String c t) = true ->
  c <> ascii_of_nat 10 /\ single_line t = true.
Proof.
  cbn [single_line]. intros H. apply andb_true_iff in H.
  destruct H as [Hc Ht]. split; [| assumption].
  intros ->. rewrite Ascii.eqb_refl in Hc. discriminate.
Qed.

(** The first line feed of a text ends its first line. *)
Lemma first_line_unique (a b r1 r2 : string) :
  single_line a = true -> single_line b = true ->
  a ++ LF ++ r1 = b ++ LF ++ r2 -> a = b /\ r1 = r2.
Proof.
  revert b. induction a as [|c a IH]; intros [|d b] Ha Hb H;
    cbn [append LF] in H.
  - injection H as H. now split.
  - injection H as Hd _. apply single_line_cons in Hb.
    destruct Hb as [Hb _]. now elim Hb.
  - injection H as Hc _. apply single_line_cons in Ha.
    destruct Ha as [Ha _]. now elim Ha.
  - injection H as Hc H. subst d.
    apply single_line_cons in Ha. apply single_line_cons in Hb.
    destruct (IH b (proj2 Ha) (proj2 Hb) H) as [-> ->]. now split.
Qed.

Lemma single_line_bullet (k : string) :
  single_line k = true -> single_line (bullet k) = true.
Proof. intros H. unfold bullet. cbn. exact H. Qed.

Lemma unlines_bullets_inj (l1 l2 : list string) :
  forallb single_line l1 = true ->
  forallb single_line l2 = true ->
  unlines (map bullet l1) = unlines (map bullet l2) -> l1 = l2.
Proof.
  revert l2. induction l1 as [|k ks IH]; intros [|k' ks'] H1 H2 H;
    cbn [map unlines forallb] in *; try reflexivity; try discriminate.
  apply andb_true_iff in H1. apply andb_true_iff in H2.
  destruct H1 as [Hk Hks]. destruct H2 as [Hk' Hks'].
  apply first_line_unique in H; try now apply single_line_bullet.
  destruct H as [Hb Hrest].
  f_equal; [now apply bullet_inj | now apply IH].
Qed.

(** X8.  When no server name contains a line feed, the text printed
    without a server name determines the names of the registry and their
    order: two runs (against any two collaborators) write the same text to
    standard output exactly when their registries yield the same keys in
    the same order. *)
Theorem listing_text_determines_names
    (C1 C2 : Collaborator) (args1 args2 : list string)
    (s1 t1 : CS C1) (s2 t2 : CS C2) (m1 : Mgr C1) (m2 : Mgr C2) :
  positional args1 = [] ->
  positional args2 = [] ->
  SSHServerManager C1 s1 = (Returned m1, t1) ->
  SSHServerManager C2 s2 = (Returned m2, t2) ->
  forallb single_line (keys (servers C1 m1 t1)) = true ->
  forallb single_line (keys (servers C2 m2 t2)) = true ->
  stdout_text C1 (final C1 args1 s1) = stdout_text C2 (final C2 args2 s2) <->
  keys (servers C1 m1 t1) = keys (servers C2 m2 t2).
Proof.
  intros Hp1 Hp2 Hn1 Hn2 Hl1 Hl2. unfold stdout_text, final.
  rewrite (run_usage C1 args1 s1 m1 t1 Hp1 Hn1).
  rewrite (run_usage C2 args2 s2 m2 t2 Hp2 Hn2).
  cbn [snd stdout unlines]. split.
  - intros H.
    do 4 apply append_cancel_l in H.
    now apply unlines_bullets_inj.
  - intros ->. reflexivity.
Qed.

Lemma listing_text_determines_names_witness :
  keys (servers Demo.collaborator tt 0%nat) =
  keys (servers Failing.timeouts tt 5%nat).
Proof.
  apply (proj1 (listing_text_determines_names
                  Demo.collaborator Failing.timeouts
                  ["test-connection.py"] [] 0%nat 0%nat 5%nat 5%nat tt tt
                  eq_refl eq_refl eq_refl eq_refl eq_refl eq_refl)).
  reflexivity.
Defined.

(** The condition on line feeds is needed: these two registries differ
    and are listed by the same text. *)
Example listing_ambiguous_with_line_feed :
  stdout_text Alike.two_servers (final Alike.two_servers [] tt) =
  stdout_text Alike.one_server_two_lines
    (final Alike.one_server_two_lines [] tt) /\
  keys (servers Alike.two_servers tt tt) <>
  keys (servers Alike.one_server_two_lines tt tt).
Proof. split; [reflexivity | discriminate]. Qed.
